(** * The data-access layer of the reservation front end

    A shallow embedding of the API module of the front end: the transport
    core [fetchJson] and the eight operations built on it
    ([listReservations], [createReservation], [listTables], [createTable],
    [editReservation], [updateReservationStatus], [seatReservation],
    [finishTable]).

    JavaScript data is embedded as a first-order type [value]; a computation
    is a trace of the observable calls it makes (to [fetch], to
    [response.json], to [console.error], to the two formatters) together
    with its completion (a normal result or a thrown value).  A promise is
    represented by its settled state, fulfilled or rejected; a request that
    never settles is outside the model.  What the module takes from its
    surroundings (the network, the URL parser, the number printer,
    [JSON.stringify], the build-time base address, the two imported
    formatters) is a variable of the section that holds the operations.

    The route table of the layout ([Routes]) is embedded beside it, as the
    element its [<Switch>] selects at a location. *)

From Stdlib Require Import ZArith List String Ascii Bool Lia.
From Stdlib Require Import Floats.SpecFloat DecimalString.
Import ListNotations.
Open Scope string_scope.
Set Warnings "-register-all".

(** ** JavaScript values *)

(** The values that flow through the module: JSON-like data.  A number is an
    IEEE 754 datum ([spec_float]).  An object is the list of its own
    enumerable string-keyed properties, in the order in which
    [Object.entries] enumerates them; its prototype is the plain one. *)
Inductive value : Type :=
| VUndefined
| VNull
| VBool (b : bool)
| VNum (x : spec_float)
| VStr (s : string)
| VArr (xs : list value)
| VObj (props : list (string * value)).

(** Abrupt or normal end of a synchronous evaluation. *)
Inductive completion (A : Type) : Type :=
| Normal (a : A)
| Throw (e : value).
Arguments Normal {A} a.
Arguments Throw {A} e.

(** The settled state of a promise. *)
Inductive settled (A : Type) : Type :=
| Fulfilled (a : A)
| Rejected (e : value).
Arguments Fulfilled {A} a.
Arguments Rejected {A} e.

(** Property lookup in the property list of an object: the first binding. *)
Fixpoint lookup (k : string) (ps : list (string * value)) : option value :=
  match ps with
  | [] => None
  | (k', v) :: ps' => if String.eqb k k' then Some v else lookup k ps'
  end.

(** An error object of the engine: its [name], its [message] and the header
    line of its [stack] (the frames that follow are the engine's own). *)
Definition mkError (name message : string) : value :=
  VObj [("name", VStr name); ("message", VStr message);
        ("stack", VStr (name ++ ": " ++ message))].

Definition TypeError (message : string) : value := mkError "TypeError" message.

(** [v.k] for the keys this module reads ([error], [data], [name],
    [stack]): none of them is on a built-in prototype, so only an object can
    hold one, and reading a property of [null] or [undefined] throws. *)
Definition prop (k : string) (ps : list (string * value)) : value :=
  match lookup k ps with
  | Some w => w
  | None => VUndefined
  end.

Definition get (v : value) (k : string) : completion value :=
  match v with
  | VUndefined | VNull =>
      Throw (TypeError ("Cannot read properties of nullish value (reading '" ++ k ++ "')"))
  | VObj ps => Normal (prop k ps)
  | _ => Normal VUndefined
  end.

Definition is_zero_or_nan (x : spec_float) : bool :=
  match x with
  | S754_zero _ | S754_nan => true
  | _ => false
  end.

(** ToBoolean. *)
Definition truthy (v : value) : bool :=
  match v with
  | VUndefined | VNull => false
  | VBool b => b
  | VNum x => negb (is_zero_or_nan x)
  | VStr s => negb (String.eqb s "")
  | VArr _ | VObj _ => true
  end.

(** [v !== s] for a string literal [s]. *)
Definition strict_neq_str (v : value) (s : string) : bool :=
  match v with
  | VStr t => negb (String.eqb t s)
  | _ => true
  end.

(** Decimal rendering of an array index. *)
Definition index_string (n : nat) : string :=
  NilZero.string_of_uint (Nat.to_uint n).

Fixpoint indexed {A : Type} (i : nat) (xs : list A) : list (string * A) :=
  match xs with
  | [] => []
  | x :: xs' => (index_string i, x) :: indexed (S i) xs'
  end.

Fixpoint code_units (s : string) : list value :=
  match s with
  | EmptyString => []
  | String c s' => VStr (String c EmptyString) :: code_units s'
  end.

(** [Object.entries(v)]: the own enumerable string-keyed properties.  It
    throws on [null] and [undefined]; a number or a boolean has none; a
    string and an array have their indices. *)
Definition Object_entries (v : value) : completion (list (string * value)) :=
  match v with
  | VUndefined | VNull => Throw (TypeError "Cannot convert undefined or null to object")
  | VBool _ | VNum _ => Normal []
  | VStr s => Normal (indexed 0 (code_units s))
  | VArr xs => Normal (indexed 0 xs)
  | VObj ps => Normal ps
  end.

(** Structural comparison in the manner of a deep-equality assertion: arrays
    element by element, objects key by key whatever the order of the keys. *)
Fixpoint deep_equal (a b : value) : bool :=
  match a, b with
  | VUndefined, VUndefined => true
  | VNull, VNull => true
  | VBool x, VBool y => Bool.eqb x y
  | VNum x, VNum y => SFeqb x y
  | VStr x, VStr y => String.eqb x y
  | VArr xs, VArr ys =>
      (fix go (xs ys : list value) : bool :=
         match xs, ys with
         | [], [] => true
         | x :: xs', y :: ys' => deep_equal x y && go xs' ys'
         | _, _ => false
         end) xs ys
  | VObj ps, VObj qs =>
      Nat.eqb (List.length ps) (List.length qs) &&
      (fix go (ps : list (string * value)) : bool :=
         match ps with
         | [] => true
         | (k, v) :: ps' =>
             match lookup k qs with
             | Some w => deep_equal v w
             | None => false
             end && go ps'
         end) ps
  | _, _ => false
  end.

(** ** Requests, responses and the trace of observable calls *)

(** A parsed URL: [location] is its serialization without the query, and
    [searchParams] the name-value pairs of its query, in order. *)
Record URL : Type := { location : string; searchParams : list (string * string) }.

(** [url.searchParams.append(name, v)]. *)
Definition append (u : URL) (name v : string) : URL :=
  {| location := location u; searchParams := (searchParams u ++ [(name, v)])%list |}.

(** The first argument of [fetch]: a URL object or a string. *)
Inductive target : Type :=
| AsURL (u : URL)
| AsString (s : string).

(** The second argument of [fetch].  [opt_signal] is whatever the caller
    passed ([undefined] when nothing was); [opt_body] is absent in the
    requests that carry none. *)
Record options : Type := {
  opt_headers : list (string * string);
  opt_signal : value;
  opt_method : string;
  opt_body : option value
}.

(** What this module reads of a response: its [status], and the promise that
    [response.json()] returns. *)
Record response : Type := { status : Z; json : settled value }.

Inductive event : Type :=
| EvFetch (url : target) (opts : options)
| EvJson (r : response)
| EvConsoleError (v : value)
| EvFormatDate (v : value)
| EvFormatTime (v : value).

Definition is_json (e : event) : bool :=
  match e with EvJson _ => true | _ => false end.

Definition is_format (e : event) : bool :=
  match e with EvFormatDate _ | EvFormatTime _ => true | _ => false end.

Definition is_console (e : event) : bool :=
  match e with EvConsoleError _ => true | _ => false end.

Definition is_fetch (e : event) : bool :=
  match e with EvFetch _ _ => true | _ => false end.

(** ** Computations *)

Module Comp.

(** A computation: the calls it made, then how it ended. *)
Definition M (A : Type) : Type := (list event * completion A)%type.

Definition ret {A : Type} (a : A) : M A := ([], Normal a).

Definition throw {A : Type} (e : value) : M A := ([], Throw e).

Definition bind {A B : Type} (m : M A) (k : A -> M B) : M B :=
  match m with
  | (t, Normal a) => let (t', r) := k a in ((t ++ t')%list, r)
  | (t, Throw e) => (t, Throw e)
  end.

Definition lift {A : Type} (c : completion A) : M A := ([], c).

Definition log (e : event) : M unit := ([e], Normal tt).

(** [try { m } catch (error) { h error }]. *)
Definition try_catch {A : Type} (m : M A) (h : value -> M A) : M A :=
  match m with
  | (t, Throw e) => let (t', r) := h e in ((t ++ t')%list, r)
  | (t, Normal a) => (t, Normal a)
  end.

(** [await p]. *)
Definition await {A : Type} (p : settled A) : M A :=
  match p with
  | Fulfilled a => ret a
  | Rejected e => throw e
  end.

(** What a [return] statement of an async function hands over: a plain
    value or a promise. *)
Inductive returned : Type :=
| RetVal (v : value)
| RetPromise (p : settled value).

(** The call of an [async function]: the call itself always completes
    normally with a promise; the promise is fulfilled with a returned
    value, follows a returned promise, and is rejected with whatever the
    body throws. *)
Definition async (body : M returned) : M (settled value) :=
  let (t, c) := body in
  (t, Normal match c with
             | Normal (RetVal v) => Fulfilled v
             | Normal (RetPromise p) => p
             | Throw e => Rejected e
             end).

(** [p.then(f)]: [f] runs only when [p] is fulfilled; a rejection passes
    through. *)
Definition then_ (p : settled value) (f : value -> M value) : M (settled value) :=
  match p with
  | Fulfilled v =>
      let (t, c) := f v in
      (t, Normal match c with
                 | Normal r => Fulfilled r
                 | Throw e => Rejected e
                 end)
  | Rejected e => ret (Rejected e)
  end.

(** [xs.forEach(f)] where [f] updates a piece of state. *)
Fixpoint forEach {A S : Type} (xs : list A) (f : A -> S -> M S) (s : S) : M S :=
  match xs with
  | [] => ret s
  | x :: xs' => bind (f x s) (forEach xs' f)
  end.

End Comp.
Import Comp.

Declare Scope comp_scope.
Delimit Scope comp_scope with comp.
Notation "x <- c ;; k" := (bind c (fun x => k))
  (at level 100, c at next level, right associativity) : comp_scope.
Notation "c ;;; k" := (bind c (fun _ => k))
  (at level 100, right associativity) : comp_scope.
Open Scope comp_scope.

Definition trace {A : Type} (m : M A) : list event := fst m.
Definition outcome {A : Type} (m : M A) : completion A := snd m.

(** ** Sample collaborators

    Instances of what the operations take from their surroundings, used to
    run them on concrete inputs. *)

(** A URL parser for absolute addresses that carry no query. *)
Definition plain_URL (s : string) : completion URL :=
  Normal {| location := s; searchParams := [] |}.

(** A number printer that only tells the classes of numbers apart. *)
Definition coarse_number (x : spec_float) : string :=
  match x with
  | S754_zero _ => "0"
  | S754_nan => "NaN"
  | S754_infinity false => "Infinity"
  | S754_infinity true => "-Infinity"
  | S754_finite _ _ _ => "1"
  end.

Definition opaque_stringify (v : value) : value := v.

Fixpoint take (n : nat) (s : string) : string :=
  match n, s with
  | S n', String c s' => String c (take n' s')
  | _, _ => EmptyString
  end.

(** Replaces the string held under [k] by its first [n] characters. *)
Fixpoint clip_field (k : string) (n : nat) (ps : list (string * value))
  : list (string * value) :=
  match ps with
  | [] => []
  | (k', v) :: ps' =>
      (k', if String.eqb k k'
           then match v with VStr s => VStr (take n s) | _ => v end
           else v) :: clip_field k n ps'
  end.

Definition clip_record (k : string) (n : nat) (v : value) : completion value :=
  match v with
  | VObj ps => Normal (VObj (clip_field k n ps))
  | VUndefined | VNull => Throw (TypeError "Cannot read properties of nullish value")
  | _ => Throw (TypeError "Cannot read properties of undefined")
  end.

Fixpoint clip_all (k : string) (n : nat) (xs : list value) : completion (list value) :=
  match xs with
  | [] => Normal []
  | x :: xs' =>
      match clip_record k n x with
      | Throw e => Throw e
      | Normal y =>
          match clip_all k n xs' with
          | Throw e => Throw e
          | Normal ys => Normal (y :: ys)
          end
      end
  end.

(** A normalizer of one field of every reservation of a list, or of a single
    reservation. *)
Definition clip (k : string) (n : nat) (v : value) : completion value :=
  match v with
  | VArr xs =>
      match clip_all k n xs with
      | Normal ys => Normal (VArr ys)
      | Throw e => Throw e
      end
  | _ => clip_record k n v
  end.

(** Dates as [YYYY-MM-DD], times as [HH:MM]. *)
Definition sample_formatDate : value -> completion value := clip "reservation_date" 10.
Definition sample_formatTime : value -> completion value := clip "reservation_time" 5.


(** A network that answers every request with the same settled promise. *)
Definition constant_fetch (p : settled response) : target -> options -> settled response :=
  fun _ _ => p.

(** Sample data. *)
Definition abort_error : value := mkError "AbortError" "The user aborted a request.".
Definition network_error : value := mkError "TypeError" "Failed to fetch".

Definition raw_reservations : value :=
  VArr [VObj [("reservation_date", VStr "2023-01-01");
              ("reservation_time", VStr "18:30:00")]].

Definition shown_reservations : value :=
  VArr [VObj [("reservation_date", VStr "2023-01-01");
              ("reservation_time", VStr "18:30")]].

Definition ok_response (body : value) : response :=
  {| status := 200; json := Fulfilled body |}.

(** A response of status 204 behind which an error envelope would be read. *)
Definition no_content_response : response :=
  {| status := 204; json := Fulfilled (VObj [("error", VStr "X")]) |}.

Definition both_fields : value := VObj [("error", VStr "X"); ("data", VNum (S754_zero false))].

Definition reservations_url (q : list (string * string)) : target :=
  AsURL {| location := "http://localhost:5000/reservations"; searchParams := q |}.

Definition get_options : options :=
  {| opt_headers := [("Content-Type", "application/json")]; opt_signal := VUndefined;
     opt_method := "GET"; opt_body := None |}.

(** ** The route table

    The component [Routes] of the layout: a [<Switch>] over six [<Route>]
    children.  The router's path matcher, the query hook and the clock are
    variables. *)

(** What a route of the table puts on the page. *)
Inductive element : Type :=
| Redirect (to : string)
| Dashboard (date : value)
| Search
| NotFound
| NewReservation.

(** A [<Route>] child: its [exact] and [path] props and the element it
    wraps. *)
Record Route : Type := {
  route_exact : bool;
  route_path : option string;
  route_children : element
}.

Section Layout.

(** [matchPath(pathname, {path, exact})] of the router: whether there is a
    match. *)
Variable matchPath : string -> string -> bool -> bool.
(** [useQuery().get(name)]. *)
Variable query_get : string -> value.
(** [today()]. *)
Variable today : value.

(** Whether a child of a [<Switch>] matches: through [matchPath] when it has
    a path, and always when it has none (or an empty one). *)
Definition route_matches (pathname : string) (r : Route) : bool :=
  match route_path r with
  | Some p => if String.eqb p "" then true else matchPath pathname p (route_exact r)
  | None => true
  end.

(** [<Switch>]: the first child that matches the location is rendered, and
    nothing when none does. *)
Fixpoint Switch (pathname : string) (routes : list Route) : option element :=
  match routes with
  | [] => None
  | r :: routes' =>
      if route_matches pathname r then Some (route_children r)
      else Switch pathname routes'
  end.

Definition Routes (pathname : string) : option element :=
  let date := query_get "date" in
  Switch pathname
    [ {| route_exact := true; route_path := Some "/";
         route_children := Redirect "/dashboard" |};
      {| route_exact := true; route_path := Some "/reservations";
         route_children := Redirect "/dashboard" |};
      {| route_exact := false; route_path := Some "/dashboard";
         route_children := Dashboard (if truthy date then date else today) |};
      {| route_exact := false; route_path := Some "/search";
         route_children := Search |};
      {| route_exact := false; route_path := None;
         route_children := NotFound |};
      {| route_exact := true; route_path := Some "/reservations/new";
         route_children := NewReservation |} ].

End Layout.

(** A sample matcher for fixed paths: the whole location when [exact], a
    prefix of it otherwise. *)
Definition literal_match (pathname p : string) (exact : bool) : bool :=
  if exact then String.eqb pathname p else String.prefix p pathname.

Definition is_nullish (v : value) : bool :=
  match v with
  | VUndefined | VNull => true
  | _ => false
  end.

(** ** The module *)

Section Api.

(** [process.env.REACT_APP_API_BASE_URL], when the build sets it. *)
Variable REACT_APP_API_BASE_URL : option string.
(** [new URL(s)]: the parsed URL, or the [TypeError] of an invalid one. *)
Variable new_URL : string -> completion URL.
(** The network: the settled state of the promise [fetch(url, options)]
    returns. *)
Variable fetch : target -> options -> settled response.
(** [Number.prototype.toString]. *)
Variable Number_toString : spec_float -> string.
(** [JSON.stringify]. *)
Variable JSON_stringify : value -> value.
(** The two imported formatters. *)
Variable formatReservationDate : value -> completion value.
Variable formatReservationTime : value -> completion value.

Definition API_BASE_URL : string :=
  match REACT_APP_API_BASE_URL with
  | Some s => if String.eqb s "" then "http://localhost:5000" else s
  | None => "http://localhost:5000"
  end.

Definition headers : list (string * string) :=
  [("Content-Type", "application/json")].

(** The conversion of a value to a string, as a template literal and
    [Array.prototype.join] perform it.  An object prints through the
    inherited [toString]; an own property of that name is not callable in
    this value space, and the conversion throws. *)
Fixpoint ToString (v : value) : completion string :=
  match v with
  | VUndefined => Normal "undefined"
  | VNull => Normal "null"
  | VBool true => Normal "true"
  | VBool false => Normal "false"
  | VNum x => Normal (Number_toString x)
  | VStr s => Normal s
  | VArr xs =>
      (fix join (xs : list value) : completion string :=
         match xs with
         | [] => Normal ""
         | x :: xs' =>
             match match x with
                   | VUndefined | VNull => Normal ""
                   | _ => ToString x
                   end with
             | Throw e => Throw e
             | Normal s =>
                 match xs' with
                 | [] => Normal s
                 | _ :: _ =>
                     match join xs' with
                     | Throw e => Throw e
                     | Normal r => Normal (s ++ "," ++ r)
                     end
                 end
             end
         end) xs
  | VObj ps =>
      match lookup "toString" ps with
      | Some _ => Throw (TypeError "Cannot convert object to primitive value")
      | None => Normal "[object Object]"
      end
  end.

(** The method call [v.toString()]: there is no such method on [null] and
    [undefined]. *)
Definition toString (v : value) : completion string :=
  match v with
  | VUndefined | VNull =>
      Throw (TypeError "Cannot read properties of nullish value (reading 'toString')")
  | _ => ToString v
  end.

Definition call_fetch (url : target) (opts : options) : M (settled response) :=
  log (EvFetch url opts);;; ret (fetch url opts).

Definition call_json (r : response) : M (settled value) :=
  log (EvJson r);;; ret (json r).

Definition console_error (v : value) : M unit := log (EvConsoleError v).

Definition call_formatReservationDate (v : value) : M value :=
  log (EvFormatDate v);;; lift (formatReservationDate v).

Definition call_formatReservationTime (v : value) : M value :=
  log (EvFormatTime v);;; lift (formatReservationTime v).

(** The transport core. *)
Definition fetchJson (url : target) (opts : options) (onCancel : value)
  : M (settled value) :=
  async (
    try_catch
      (p <- call_fetch url opts;;
       response <- await p;;
       if Z.eqb (status response) 204 then ret (RetVal VNull)
       else
         q <- call_json response;;
         payload <- await q;;
         e <- lift (get payload "error");;
         if truthy e
         then ret (RetPromise (Rejected (VObj [("message", e)])))
         else
           d <- lift (get payload "data");;
           ret (RetVal d))
      (fun error =>
         n <- lift (get error "name");;
         if strict_neq_str n "AbortError"
         then
           s <- lift (get error "stack");;
           console_error s;;;
           throw error
         else ret (RetPromise (Fulfilled onCancel)))).

Definition request (signal : value) (method : string) (body : option value) : options :=
  {| opt_headers := headers; opt_signal := signal;
     opt_method := method; opt_body := body |}.

Definition listReservations (params signal : value) : M (settled value) :=
  async (
    url <- lift (new_URL (API_BASE_URL ++ "/reservations"));;
    url <- (if truthy params
            then
              entries <- lift (Object_entries params);;
              forEach entries
                (fun '(key, v) u => s <- lift (toString v);; ret (append u key s))
                url
            else ret url);;
    p <- fetchJson (AsURL url) (request signal "GET" None) (VArr []);;
    p <- then_ p call_formatReservationDate;;
    p <- then_ p call_formatReservationTime;;
    r <- await p;;
    ret (RetVal r)).

Definition createReservation (reservation signal : value) : M (settled value) :=
  async (
    let url := API_BASE_URL ++ "/reservations" in
    let body := JSON_stringify (VObj [("data", reservation)]) in
    p <- fetchJson (AsString url) (request signal "POST" (Some body)) (VArr []);;
    r <- await p;;
    ret (RetVal r)).

Definition listTables (signal : value) : M (settled value) :=
  async (
    let url := API_BASE_URL ++ "/tables" in
    p <- fetchJson (AsString url) (request signal "GET" None) (VArr []);;
    r <- await p;;
    ret (RetVal r)).

Definition createTable (table signal : value) : M (settled value) :=
  async (
    let url := API_BASE_URL ++ "/tables" in
    let body := JSON_stringify (VObj [("data", table)]) in
    p <- fetchJson (AsString url) (request signal "POST" (Some body)) (VArr []);;
    r <- await p;;
    ret (RetVal r)).

Definition editReservation (reservation_id reservation signal : value)
  : M (settled value) :=
  async (
    id <- lift (ToString reservation_id);;
    let url := API_BASE_URL ++ "/reservations/" ++ id in
    let body := JSON_stringify (VObj [("data", reservation)]) in
    p <- fetchJson (AsString url) (request signal "PUT" (Some body)) (VArr []);;
    r <- await p;;
    ret (RetVal r)).

Definition updateReservationStatus (reservation_id status signal : value)
  : M (settled value) :=
  async (
    id <- lift (ToString reservation_id);;
    let url := API_BASE_URL ++ "/reservations/" ++ id ++ "/status" in
    let body := JSON_stringify (VObj [("data", VObj [("status", status)])]) in
    p <- fetchJson (AsString url) (request signal "PUT" (Some body)) (VArr []);;
    r <- await p;;
    ret (RetVal r)).

Definition seatReservation (reservation_id table_id signal : value)
  : M (settled value) :=
  async (
    id <- lift (ToString table_id);;
    let url := API_BASE_URL ++ "/tables/" ++ id ++ "/seat" in
    let body :=
      JSON_stringify (VObj [("data", VObj [("reservation_id", reservation_id)])]) in
    p <- fetchJson (AsString url) (request signal "PUT" (Some body)) (VArr []);;
    r <- await p;;
    ret (RetVal r)).

Definition finishTable (table_id signal : value) : M (settled value) :=
  async (
    id <- lift (ToString table_id);;
    let url := API_BASE_URL ++ "/tables/" ++ id ++ "/seat" in
    p <- fetchJson (AsString url) (request signal "DELETE" None) (VArr []);;
    r <- await p;;
    ret (RetVal r)).

(** The catalog: a call of one of the eight exported operations. *)
Inductive operation : Type :=
| ListReservations (params signal : value)
| CreateReservation (reservation signal : value)
| ListTables (signal : value)
| CreateTable (table signal : value)
| EditReservation (reservation_id reservation signal : value)
| UpdateReservationStatus (reservation_id status signal : value)
| SeatReservation (reservation_id table_id signal : value)
| FinishTable (table_id signal : value).

Definition run (op : operation) : M (settled value) :=
  match op with
  | ListReservations params signal => listReservations params signal
  | CreateReservation reservation signal => createReservation reservation signal
  | ListTables signal => listTables signal
  | CreateTable table signal => createTable table signal
  | EditReservation reservation_id reservation signal =>
      editReservation reservation_id reservation signal
  | UpdateReservationStatus reservation_id st signal =>
      updateReservationStatus reservation_id st signal
  | SeatReservation reservation_id table_id signal =>
      seatReservation reservation_id table_id signal
  | FinishTable table_id signal => finishTable table_id signal
  end.

Definition is_list_reservations (op : operation) : bool :=
  match op with ListReservations _ _ => true | _ => false end.

(** The request [url], [opts] is the one the computation hands to
    [fetch]. *)
Definition issues {A : Type} (m : M A) (url : target) (opts : options) : Prop :=
  In (EvFetch url opts) (trace m).

(** The two-stage formatting of a raw result: the date formatter, then the
    time formatter on what the first returned; the calls made and the
    state of the resulting promise. *)
Definition pipeline (v : value) : list event * settled value :=
  match formatReservationDate v with
  | Throw e => ([EvFormatDate v], Rejected e)
  | Normal d =>
      match formatReservationTime d with
      | Throw e => ([EvFormatDate v; EvFormatTime d], Rejected e)
      | Normal r => ([EvFormatDate v; EvFormatTime d], Fulfilled r)
      end
  end.

(** The strings a list of entries contributes to the query: each value
    through its [toString], up to the first that throws. *)
Fixpoint query_of (es : list (string * value)) : completion (list (string * string)) :=
  match es with
  | [] => Normal []
  | (k, v) :: es' =>
      match toString v with
      | Throw e => Throw e
      | Normal s =>
          match query_of es' with
          | Throw e => Throw e
          | Normal q => Normal ((k, s) :: q)
          end
      end
  end.

(** The query the filter argument of [listReservations] contributes. *)
Definition list_query (params : value) : completion (list (string * string)) :=
  if truthy params
  then match Object_entries params with
       | Normal es => query_of es
       | Throw e => Throw e
       end
  else Normal [].

(** A transport result followed by the formatting pipeline, which runs on
    a fulfilled result only. *)
Definition formatted (m : M (settled value)) : M (settled value) :=
  match m with
  | (t, Normal (Fulfilled v)) => ((t ++ fst (pipeline v))%list, Normal (snd (pipeline v)))
  | _ => m
  end.

Definition pair_eq_dec (a b : string * string) : {a = b} + {a <> b}.
Proof. decide equality; apply string_dec. Defined.

(** The signal argument of a call. *)
Definition signal_of (op : operation) : value :=
  match op with
  | ListReservations _ signal
  | CreateReservation _ signal
  | ListTables signal
  | CreateTable _ signal
  | EditReservation _ _ signal
  | UpdateReservationStatus _ _ signal
  | SeatReservation _ _ signal
  | FinishTable _ signal => signal
  end.

(** The failure [err] of the underlying call, of the network call or of the
    parsing of the body, is a cancellation. *)
Definition cancelled_by (url : target) (opts : options) (err : value) : Prop :=
  get err "name" = Normal (VStr "AbortError") /\
  (fetch url opts = Rejected err \/
   exists r, fetch url opts = Fulfilled r /\ status r <> 204%Z /\ json r = Rejected err).

(** ** Properties *)

(** *** The transport core *)

Definition quiet (e : event) : bool := negb (is_fetch e) && negb (is_format e).

Lemma fetchJson_shape url opts onCancel :
  exists t p,
    fetchJson url opts onCancel = (EvFetch url opts :: t, Normal p) /\
    forallb quiet t = true.
Proof.
  unfold fetchJson, call_fetch, call_json, console_error.
  destruct (fetch url opts) as [r | err]; simpl.
  - destruct (Z.eqb (status r) 204); simpl; [eauto |].
    destruct (json r) as [payload | err]; simpl.
    + destruct payload; simpl; eauto.
      destruct (truthy (prop "error" props)); simpl; eauto.
    + destruct err; simpl; eauto;
        match goal with
        | |- context [strict_neq_str ?n "AbortError"] =>
            destruct (strict_neq_str n "AbortError"); simpl; eauto
        end.
  - destruct err; simpl; eauto;
      match goal with
      | |- context [strict_neq_str ?n "AbortError"] =>
          destruct (strict_neq_str n "AbortError"); simpl; eauto
      end.
Qed.

Lemma fetchJson_no_content url opts onCancel r :
  fetch url opts = Fulfilled r ->
  status r = 204%Z ->
  fetchJson url opts onCancel = ([EvFetch url opts], Normal (Fulfilled VNull)).
Proof.
  intros Hf Hs. unfold fetchJson, call_fetch. rewrite Hf. simpl.
  rewrite Hs. reflexivity.
Qed.

Lemma fetchJson_envelope url opts onCancel r ps :
  fetch url opts = Fulfilled r ->
  status r <> 204%Z ->
  json r = Fulfilled (VObj ps) ->
  fetchJson url opts onCancel =
    ([EvFetch url opts; EvJson r],
     Normal (if truthy (prop "error" ps)
             then Rejected (VObj [("message", prop "error" ps)])
             else Fulfilled (prop "data" ps))).
Proof.
  intros Hf Hs Hj. unfold fetchJson, call_fetch, call_json.
  rewrite Hf. simpl. apply Z.eqb_neq in Hs. rewrite Hs. simpl.
  rewrite Hj. simpl. destruct (truthy (prop "error" ps)); reflexivity.
Qed.

(** The [catch] clause: a cancellation, then the two kinds of failure. *)
Lemma fetchJson_cancelled url opts onCancel err :
  fetch url opts = Rejected err ->
  get err "name" = Normal (VStr "AbortError") ->
  fetchJson url opts onCancel = ([EvFetch url opts], Normal (Fulfilled onCancel)).
Proof.
  intros Hf Hn. unfold fetchJson, call_fetch. rewrite Hf. simpl.
  rewrite Hn. reflexivity.
Qed.

Lemma get_total v k k' w : get v k = Normal w -> exists w', get v k' = Normal w'.
Proof. destruct v; simpl; intros H; try discriminate; eauto. Qed.

Lemma fetchJson_fetch_failed url opts onCancel err n :
  fetch url opts = Rejected err ->
  get err "name" = Normal n ->
  strict_neq_str n "AbortError" = true ->
  exists s, get err "stack" = Normal s /\
    fetchJson url opts onCancel =
      ([EvFetch url opts; EvConsoleError s], Normal (Rejected err)).
Proof.
  intros Hf Hn Hneq.
  destruct (get_total _ _ "stack" _ Hn) as [s Hs]. exists s. split; [exact Hs |].
  unfold fetchJson, call_fetch, console_error. rewrite Hf. simpl.
  rewrite Hn. simpl. rewrite Hneq, Hs. reflexivity.
Qed.

Lemma fetchJson_json_failed url opts onCancel r err n :
  fetch url opts = Fulfilled r ->
  status r <> 204%Z ->
  json r = Rejected err ->
  get err "name" = Normal n ->
  strict_neq_str n "AbortError" = true ->
  exists s, get err "stack" = Normal s /\
    fetchJson url opts onCancel =
      ([EvFetch url opts; EvJson r; EvConsoleError s], Normal (Rejected err)).
Proof.
  intros Hf Hst Hj Hn Hneq.
  destruct (get_total _ _ "stack" _ Hn) as [s Hs]. exists s. split; [exact Hs |].
  unfold fetchJson, call_fetch, call_json, console_error. rewrite Hf. simpl.
  apply Z.eqb_neq in Hst. rewrite Hst. simpl. rewrite Hj. simpl.
  rewrite Hn. simpl. rewrite Hneq, Hs. reflexivity.
Qed.

Lemma issues_fetchJson url opts onCancel url' opts' :
  issues (fetchJson url opts onCancel) url' opts' -> url' = url /\ opts' = opts.
Proof.
  destruct (fetchJson_shape url opts onCancel) as (t & p & E & Hq).
  unfold issues, trace. rewrite E. simpl. intros [H | H].
  - inversion H; auto.
  - rewrite forallb_forall in Hq. apply Hq in H. discriminate.
Qed.

(** *** The operations *)

Lemma bind_lift_normal {A B : Type} (a : A) (k : A -> M B) :
  bind (lift (Normal a)) k = k a.
Proof. unfold bind, lift. destruct (k a); reflexivity. Qed.

Lemma forward_eq (m : M (settled value)) :
  (exists t p, m = (t, Normal p)) ->
  async (p <- m;; r <- await p;; ret (RetVal r)) = m.
Proof.
  intros (t & p & ->). destruct p; simpl; rewrite app_nil_r; reflexivity.
Qed.

Lemma formatted_eq (m : M (settled value)) :
  (exists t p, m = (t, Normal p)) ->
  async (p <- m;;
         p <- then_ p call_formatReservationDate;;
         p <- then_ p call_formatReservationTime;;
         r <- await p;;
         ret (RetVal r)) = formatted m.
Proof.
  intros (t & p & ->). unfold formatted, pipeline.
  unfold call_formatReservationDate, call_formatReservationTime.
  destruct p as [v | e]; simpl.
  - destruct (formatReservationDate v) as [d | e]; simpl.
    + destruct (formatReservationTime d) as [x | e]; simpl; reflexivity.
    + reflexivity.
  - rewrite app_nil_r. reflexivity.
Qed.

Lemma fetchJson_normal url opts onCancel :
  exists t p, fetchJson url opts onCancel = (t, Normal p).
Proof.
  destruct (fetchJson_shape url opts onCancel) as (t & p & E & _). eauto.
Qed.

Lemma forEach_query es u :
  forEach es (fun '(key, v) u => s <- lift (toString v);; ret (append u key s)) u =
  match query_of es with
  | Normal q => ([], Normal {| location := location u;
                               searchParams := (searchParams u ++ q)%list |})
  | Throw e => ([], Throw e)
  end.
Proof.
  revert u. induction es as [| [k v] es IH]; intros u; simpl.
  - rewrite app_nil_r. destruct u; reflexivity.
  - destruct (toString v) as [s | e]; simpl; [| reflexivity].
    rewrite IH. destruct (query_of es) as [q | e]; simpl; [| reflexivity].
    rewrite <- app_assoc. reflexivity.
Qed.

Lemma listReservations_eq params signal :
  listReservations params signal =
  match new_URL (API_BASE_URL ++ "/reservations") with
  | Throw e => ([], Normal (Rejected e))
  | Normal u0 =>
      match list_query params with
      | Throw e => ([], Normal (Rejected e))
      | Normal q =>
          formatted
            (fetchJson
               (AsURL {| location := location u0;
                         searchParams := (searchParams u0 ++ q)%list |})
               (request signal "GET" None) (VArr []))
      end
  end.
Proof.
  unfold listReservations, list_query.
  destruct (new_URL (API_BASE_URL ++ "/reservations")) as [u0 | e]; [| reflexivity].
  rewrite bind_lift_normal.
  destruct (truthy params).
  - destruct (Object_entries params) as [es | e]; [| reflexivity].
    rewrite bind_lift_normal, forEach_query.
    destruct (query_of es) as [q | e]; [| reflexivity].
    change (bind ([], Normal ?u) ?k) with (bind (lift (Normal u)) k).
    rewrite bind_lift_normal. apply formatted_eq, fetchJson_normal.
  - change (bind (ret ?u) ?k) with (bind (lift (Normal u)) k).
    rewrite bind_lift_normal, app_nil_r.
    replace {| location := location u0; searchParams := searchParams u0 |} with u0
      by (destruct u0; reflexivity).
    apply formatted_eq, fetchJson_normal.
Qed.

Lemma issues_formatted m url opts :
  issues (formatted m) url opts -> issues m url opts.
Proof.
  destruct m as [t [[v | e] | e]]; simpl; auto.
  unfold issues, trace, pipeline. simpl. intros H. apply in_app_or in H.
  destruct H as [H | H]; [exact H |].
  destruct (formatReservationDate v) as [d | e]; simpl in H.
  - destruct (formatReservationTime d); simpl in H;
      destruct H as [H | [H | []]]; discriminate.
  - destruct H as [H | []]; discriminate.
Qed.

Lemma not_issues_nil {A : Type} (c : completion A) url opts :
  ~ issues (([], c) : M A) url opts.
Proof. unfold issues, trace. simpl. tauto. Qed.

Ltac forwarded :=
  cbv zeta; rewrite forward_eq by apply fetchJson_normal;
  let H := fresh in
  intros H; apply issues_fetchJson in H; destruct H as [-> ->]; reflexivity.

Ltac after_id x :=
  destruct (ToString x) as [? | ?];
  [ rewrite bind_lift_normal; forwarded
  | intros H; exfalso; exact (not_issues_nil _ _ _ H) ].

Lemma listReservations_issues params signal url opts :
  issues (listReservations params signal) url opts ->
  listReservations params signal = formatted (fetchJson url opts (VArr [])).
Proof.
  rewrite listReservations_eq.
  destruct (new_URL (API_BASE_URL ++ "/reservations")) as [u0 | e];
    [| intros H; exfalso; exact (not_issues_nil _ _ _ H)].
  destruct (list_query params) as [q | e];
    [| intros H; exfalso; exact (not_issues_nil _ _ _ H)].
  intros H. apply issues_formatted, issues_fetchJson in H.
  destruct H as [-> ->]. reflexivity.
Qed.

(** An operation that hands a request to [fetch] settles as the transport
    core does on that request, with the fallback [[]]; [listReservations]
    formats the transport result besides. *)
Lemma run_issues op url opts :
  issues (run op) url opts ->
  run op = if is_list_reservations op
           then formatted (fetchJson url opts (VArr []))
           else fetchJson url opts (VArr []).
Proof.
  destruct op; simpl.
  - apply listReservations_issues.
  - unfold createReservation. forwarded.
  - unfold listTables. forwarded.
  - unfold createTable. forwarded.
  - unfold editReservation. after_id reservation_id.
  - unfold updateReservationStatus. after_id reservation_id.
  - unfold seatReservation. after_id table_id.
  - unfold finishTable. after_id table_id.
Qed.

(** *** The claims *)

(** C4.  A response whose status is 204 makes [fetchJson] resolve to
    [null]; [fetch] is the only call made, so [response.json] is never
    invoked, whatever body or envelope the response would have
    produced. *)
Theorem no_content_resolves_null url opts onCancel r :
  fetch url opts = Fulfilled r ->
  status r = 204%Z ->
  outcome (fetchJson url opts onCancel) = Normal (Fulfilled VNull) /\
  trace (fetchJson url opts onCancel) = [EvFetch url opts] /\
  existsb is_json (trace (fetchJson url opts onCancel)) = false.
Proof.
  intros Hf Hs. rewrite (fetchJson_no_content _ _ onCancel _ Hf Hs).
  repeat split.
Qed.

(** C9.  On a response other than 204 whose parsed body holds both a
    truthy [error] field and a [data] field, [fetchJson] rejects with
    [{message: <error>}]: the error test comes before the extraction of
    the data. *)
Theorem error_takes_precedence url opts onCancel r ps e d :
  fetch url opts = Fulfilled r ->
  status r <> 204%Z ->
  json r = Fulfilled (VObj ps) ->
  lookup "error" ps = Some e ->
  truthy e = true ->
  lookup "data" ps = Some d ->
  outcome (fetchJson url opts onCancel) = Normal (Rejected (VObj [("message", e)])).
Proof.
  intros Hf Hs Hj He Ht _.
  rewrite (fetchJson_envelope _ _ onCancel _ _ Hf Hs Hj).
  unfold prop. rewrite He, Ht. reflexivity.
Qed.

(** C6.  When the underlying call fails, the network call or the parsing
    of the body, with an error whose name is not [AbortError],
    [fetchJson] logs the stack of the error with [console.error] and
    rejects with that very error. *)
Theorem transport_failure_rethrown url opts onCancel err n :
  (fetch url opts = Rejected err \/
   exists r, fetch url opts = Fulfilled r /\ status r <> 204%Z /\ json r = Rejected err) ->
  get err "name" = Normal n ->
  strict_neq_str n "AbortError" = true ->
  outcome (fetchJson url opts onCancel) = Normal (Rejected err) /\
  exists s, get err "stack" = Normal s /\
            In (EvConsoleError s) (trace (fetchJson url opts onCancel)).
Proof.
  intros [Hf | (r & Hf & Hs & Hj)] Hn Hneq.
  - destruct (fetchJson_fetch_failed _ _ onCancel _ _ Hf Hn Hneq) as (s & Hst & E).
    rewrite E. split; [reflexivity |]. exists s. split; [exact Hst |].
    simpl. auto.
  - destruct (fetchJson_json_failed _ _ onCancel _ _ _ Hf Hs Hj Hn Hneq) as (s & Hst & E).
    rewrite E. split; [reflexivity |]. exists s. split; [exact Hst |].
    simpl. auto.
Qed.

(** C1, amended.  On a response whose status is not 204 and whose parsed
    body has a non-empty string [x] as its [error] field, [fetchJson]
    rejects with [{message: x}], whatever the status otherwise is, and so
    does every operation that issued the request. *)
Theorem backend_error_rejects url opts r ps x :
  fetch url opts = Fulfilled r ->
  status r <> 204%Z ->
  json r = Fulfilled (VObj ps) ->
  lookup "error" ps = Some (VStr x) ->
  x <> "" ->
  (forall onCancel,
      outcome (fetchJson url opts onCancel) =
        Normal (Rejected (VObj [("message", VStr x)]))) /\
  (forall op,
      issues (run op) url opts ->
      outcome (run op) = Normal (Rejected (VObj [("message", VStr x)]))).
Proof.
  intros Hf Hs Hj He Hx.
  assert (E : forall onCancel,
             fetchJson url opts onCancel =
               ([EvFetch url opts; EvJson r],
                Normal (Rejected (VObj [("message", VStr x)])))).
  { intros onCancel. rewrite (fetchJson_envelope _ _ onCancel _ _ Hf Hs Hj).
    unfold prop. rewrite He. simpl.
    apply String.eqb_neq in Hx. rewrite Hx. reflexivity. }
  split.
  - intros onCancel. rewrite E. reflexivity.
  - intros op Hop. rewrite (run_issues _ _ _ Hop), E.
    destruct (is_list_reservations op); reflexivity.
Qed.

(** C2, amended.  On a response other than 204 whose parsed body has no
    truthy [error] field and has [Y] as its [data] field, every operation
    but [listReservations] resolves to [Y]; [listReservations] settles as
    the date formatter followed by the time formatter leave [Y]: fulfilled
    with their output, rejected with what one of them throws. *)
Theorem data_envelope_resolves op url opts r ps Y :
  issues (run op) url opts ->
  fetch url opts = Fulfilled r ->
  status r <> 204%Z ->
  json r = Fulfilled (VObj ps) ->
  truthy (prop "error" ps) = false ->
  lookup "data" ps = Some Y ->
  outcome (run op) =
    Normal (if is_list_reservations op
            then match formatReservationDate Y with
                 | Throw e => Rejected e
                 | Normal d =>
                     match formatReservationTime d with
                     | Throw e => Rejected e
                     | Normal x => Fulfilled x
                     end
                 end
            else Fulfilled Y).
Proof.
  intros Hop Hf Hs Hj He Hd.
  rewrite (run_issues _ _ _ Hop).
  rewrite (fetchJson_envelope _ _ _ _ _ Hf Hs Hj), He.
  unfold prop. rewrite Hd.
  destruct (is_list_reservations op); [| reflexivity].
  unfold formatted, pipeline.
  destruct (formatReservationDate Y) as [d | e]; [| reflexivity].
  destruct (formatReservationTime d); reflexivity.
Qed.


(** C10.  When the request of [listReservations] is aborted, the fallback
    [[]] of the transport core goes to the date formatter, the output of
    the date formatter goes to the time formatter, and the promise
    resolves to the output of the time formatter, not to the raw
    fallback. *)
Theorem cancelled_list_is_formatted params signal url opts err d x :
  issues (listReservations params signal) url opts ->
  fetch url opts = Rejected err ->
  get err "name" = Normal (VStr "AbortError") ->
  formatReservationDate (VArr []) = Normal d ->
  formatReservationTime d = Normal x ->
  trace (listReservations params signal) =
    [EvFetch url opts; EvFormatDate (VArr []); EvFormatTime d] /\
  outcome (listReservations params signal) = Normal (Fulfilled x).
Proof.
  intros Hop Hf Hn Hd Ht.
  rewrite (listReservations_issues _ _ _ _ Hop), (fetchJson_cancelled _ _ _ _ Hf Hn).
  unfold formatted, pipeline. rewrite Hd, Ht. split; reflexivity.
Qed.

(** C5.  In [listReservations] the result of the transport core goes to
    the date formatter first and the output of the date formatter to the
    time formatter second; when the transport core rejects, no formatter
    is called and the operation rejects with the same value; and a
    formatter is called only after the transport core has resolved. *)
Theorem formatting_on_success_only params signal :
  (forall url opts t p,
      issues (listReservations params signal) url opts ->
      fetchJson url opts (VArr []) = (t, Normal p) ->
      match p with
      | Fulfilled v =>
          match formatReservationDate v with
          | Normal d =>
              trace (listReservations params signal) =
                (t ++ [EvFormatDate v; EvFormatTime d])%list /\
              outcome (listReservations params signal) =
                Normal match formatReservationTime d with
                       | Normal x => Fulfilled x
                       | Throw e => Rejected e
                       end
          | Throw e =>
              trace (listReservations params signal) = (t ++ [EvFormatDate v])%list /\
              outcome (listReservations params signal) = Normal (Rejected e)
          end
      | Rejected e =>
          listReservations params signal = (t, Normal (Rejected e)) /\
          existsb is_format (trace (listReservations params signal)) = false
      end) /\
  (forall ev,
      In ev (trace (listReservations params signal)) ->
      is_format ev = true ->
      exists url opts t v,
        issues (listReservations params signal) url opts /\
        fetchJson url opts (VArr []) = (t, Normal (Fulfilled v))).
Proof.
  split.
  - intros url opts t p Hop E.
    rewrite (listReservations_issues _ _ _ _ Hop), E.
    destruct p as [v | e]; unfold formatted, pipeline.
    + destruct (formatReservationDate v) as [d | e]; simpl.
      * destruct (formatReservationTime d); split; reflexivity.
      * split; reflexivity.
    + split; [reflexivity |].
      destruct (fetchJson_shape url opts (VArr [])) as (t' & p' & E' & Hq).
      rewrite E' in E. inversion E; subst. simpl.
      apply not_true_is_false. intros Hex.
      apply existsb_exists in Hex. destruct Hex as (ev & Hin & Hfm).
      rewrite forallb_forall in Hq. apply Hq in Hin.
      unfold quiet in Hin. rewrite Hfm in Hin.
      rewrite andb_false_r in Hin. discriminate.
  - intros ev Hin Hfm. rewrite listReservations_eq in *.
    destruct (new_URL (API_BASE_URL ++ "/reservations")) as [u0 | e];
      [| destruct Hin].
    destruct (list_query params) as [q | e]; [| destruct Hin].
    match type of Hin with
    | context [fetchJson ?u ?o ?c] =>
        destruct (fetchJson_shape u o c) as (t & p & E & Hq);
        exists u, o, (EvFetch u o :: t)
    end.
    rewrite E in *. destruct p as [v | e].
    + exists v. split; [| reflexivity].
      unfold issues, trace. simpl. auto.
    + exfalso. simpl in Hin. destruct Hin as [<- | Hin]; [discriminate |].
      rewrite forallb_forall in Hq. apply Hq in Hin.
      unfold quiet in Hin. rewrite Hfm in Hin.
      rewrite andb_false_r in Hin. discriminate.
Qed.

Lemma query_of_entries es q :
  Forall2 (fun e s => fst s = fst e /\ toString (snd e) = Normal (snd s)) es q ->
  query_of es = Normal q.
Proof.
  induction 1 as [| [k v] [k' s] es q [Hk Hs] _ IH]; simpl in *.
  - reflexivity.
  - subst k'. rewrite Hs, IH. reflexivity.
Qed.

Lemma issues_list_query params signal u0 q :
  new_URL (API_BASE_URL ++ "/reservations") = Normal u0 ->
  list_query params = Normal q ->
  let u := {| location := location u0; searchParams := (searchParams u0 ++ q)%list |} in
  issues (listReservations params signal) (AsURL u) (request signal "GET" None) /\
  forall url opts,
    issues (listReservations params signal) url opts ->
    url = AsURL u /\ opts = request signal "GET" None.
Proof.
  intros Hu Hq u. rewrite listReservations_eq, Hu, Hq. fold u. split.
  - destruct (fetchJson_shape (AsURL u) (request signal "GET" None) (VArr []))
      as (t & p & E & _).
    rewrite E. unfold issues, trace.
    destruct p as [v | e]; simpl; auto.
  - intros url opts H. apply issues_formatted, issues_fetchJson in H. exact H.
Qed.

(** C7.  With the filter [{date: "2023-05-01"}], [listReservations] hands
    to [fetch] one request, a GET whose URL is the parsed base address
    with the pair [date=2023-05-01] appended to its query: that pair
    occurs exactly once when the base address does not carry it already.
    More generally, for a filter object every value of which has a string
    form, the query of the request URL is that of the base address
    followed by one pair per entry of the filter, in order: the key of the
    entry with the [toString] of its value. *)
Theorem query_parameters_appended_once signal u0 :
  new_URL (API_BASE_URL ++ "/reservations") = Normal u0 ->
  (count_occ pair_eq_dec (searchParams u0) ("date", "2023-05-01") = 0 ->
   exists u,
     issues (listReservations (VObj [("date", VStr "2023-05-01")]) signal)
            (AsURL u) (request signal "GET" None) /\
     (forall url opts,
         issues (listReservations (VObj [("date", VStr "2023-05-01")]) signal) url opts ->
         url = AsURL u /\ opts = request signal "GET" None) /\
     u = append u0 "date" "2023-05-01" /\
     count_occ pair_eq_dec (searchParams u) ("date", "2023-05-01") = 1) /\
  (forall ps q,
      Forall2 (fun e s => fst s = fst e /\ toString (snd e) = Normal (snd s)) ps q ->
      let u := {| location := location u0;
                  searchParams := (searchParams u0 ++ q)%list |} in
      issues (listReservations (VObj ps) signal) (AsURL u) (request signal "GET" None) /\
      (forall url opts,
          issues (listReservations (VObj ps) signal) url opts ->
          url = AsURL u /\ opts = request signal "GET" None)).
Proof.
  intros Hu. split.
  - intros Hc. exists (append u0 "date" "2023-05-01").
    destruct (issues_list_query (VObj [("date", VStr "2023-05-01")]) signal u0
                [("date", "2023-05-01")] Hu eq_refl) as [H1 H2].
    split; [exact H1 |]. split; [exact H2 |]. split; [reflexivity |].
    unfold append. simpl. rewrite count_occ_app, Hc. simpl.
    destruct (pair_eq_dec ("date", "2023-05-01") ("date", "2023-05-01"));
      [reflexivity | congruence].
  - intros ps q HF u.
    apply (issues_list_query (VObj ps) signal u0 q Hu).
    unfold list_query. simpl. apply query_of_entries, HF.
Qed.

Lemma async_normal (body : M returned) : exists p, outcome (async body) = Normal p.
Proof. destruct body as [t c]. simpl. eauto. Qed.

Lemma query_of_stops es q k v es' e :
  query_of es = Normal q ->
  toString v = Throw e ->
  query_of (es ++ (k, v) :: es') = Throw e.
Proof.
  revert q. induction es as [| [k0 v0] es IH]; simpl; intros q Hq Hv.
  - rewrite Hv. reflexivity.
  - destruct (toString v0) as [s0 | e0]; [| discriminate Hq].
    destruct (query_of es) as [q0 | e0]; [| discriminate Hq].
    rewrite (IH q0 eq_refl Hv). reflexivity.
Qed.

(** C8.  No operation of the catalog throws synchronously, whatever its
    arguments: the call completes normally with a promise.  Every failure
    in the body of an operation is the rejection of that promise, with the
    value that was thrown: a base address that [new URL] refuses, a filter
    value that has no [toString] ([null], [undefined]) after entries that
    have one, an identifier that has no string form, a rejection of the
    transport core, a throw of the date formatter or of the time
    formatter. *)
Theorem operations_never_throw :
  (forall op, exists p, outcome (run op) = Normal p) /\
  (forall params signal e,
      new_URL (API_BASE_URL ++ "/reservations") = Throw e ->
      listReservations params signal = ([], Normal (Rejected e))) /\
  (forall v, is_nullish v = true ->
             exists e, toString v = Throw e /\ get e "name" = Normal (VStr "TypeError")) /\
  (forall signal u0 ps q k v ps' e,
      new_URL (API_BASE_URL ++ "/reservations") = Normal u0 ->
      Forall2 (fun en s => fst s = fst en /\ toString (snd en) = Normal (snd s)) ps q ->
      toString v = Throw e ->
      listReservations (VObj (ps ++ (k, v) :: ps')) signal = ([], Normal (Rejected e))) /\
  (forall id x signal e,
      ToString id = Throw e ->
      editReservation id x signal = ([], Normal (Rejected e)) /\
      updateReservationStatus id x signal = ([], Normal (Rejected e)) /\
      seatReservation x id signal = ([], Normal (Rejected e)) /\
      finishTable id signal = ([], Normal (Rejected e))) /\
  (forall op url opts e,
      issues (run op) url opts ->
      outcome (fetchJson url opts (VArr [])) = Normal (Rejected e) ->
      outcome (run op) = Normal (Rejected e)) /\
  (forall params signal url opts v,
      issues (listReservations params signal) url opts ->
      outcome (fetchJson url opts (VArr [])) = Normal (Fulfilled v) ->
      (forall e, formatReservationDate v = Throw e ->
                 outcome (listReservations params signal) = Normal (Rejected e)) /\
      (forall d e, formatReservationDate v = Normal d ->
                   formatReservationTime d = Throw e ->
                   outcome (listReservations params signal) = Normal (Rejected e))).
Proof.
  split; [| split; [| split; [| split; [| split; [| split]]]]].
  - intros op. destruct op; apply async_normal.
  - intros params signal e Hu. rewrite listReservations_eq, Hu. reflexivity.
  - intros v Hv. destruct v; try discriminate Hv; simpl;
      (eexists; split; reflexivity).
  - intros signal u0 ps q k v ps' e Hu HF Hv.
    rewrite listReservations_eq, Hu. unfold list_query. simpl.
    rewrite (query_of_stops _ _ k _ ps' _ (query_of_entries _ _ HF) Hv).
    reflexivity.
  - intros id x signal e Hid.
    unfold editReservation, updateReservationStatus, seatReservation, finishTable.
    rewrite Hid. repeat split.
  - intros op url opts e Hop He.
    rewrite (run_issues _ _ _ Hop).
    destruct (fetchJson url opts (VArr [])) as [t c]. simpl in He. subst c.
    destruct (is_list_reservations op); reflexivity.
  - intros params signal url opts v Hop Hv.
    rewrite (listReservations_issues _ _ _ _ Hop).
    destruct (fetchJson url opts (VArr [])) as [t c]. simpl in Hv. subst c.
    unfold formatted, pipeline. split.
    + intros e Hd. rewrite Hd. reflexivity.
    + intros d e Hd Ht. rewrite Hd, Ht. reflexivity.
Qed.

(** *** Further properties of the transport core *)

Ltac catch_cases err :=
  destruct err; simpl;
  try match goal with
      | |- context [strict_neq_str ?n "AbortError"] =>
          destruct (strict_neq_str n "AbortError") eqn:?; simpl
      end.

Ltac transport_cases url opts :=
  unfold fetchJson, call_fetch, call_json, console_error;
  let r := fresh "r" in
  let err := fresh "err" in
  let payload := fresh "payload" in
  destruct (fetch url opts) as [r | err] eqn:?; simpl;
  [ destruct (Z.eqb (status r) 204) eqn:?; simpl;
    [ | destruct (json r) as [payload | err] eqn:?; simpl;
        [ destruct payload; simpl;
          try match goal with
              | |- context [truthy (prop "error" ?ps)] =>
                  destruct (truthy (prop "error" ps)) eqn:?; simpl
              end
        | catch_cases err ] ]
  | catch_cases err ].

(** X1.  The calls [fetchJson] makes are [fetch] once, then at most one
    [response.json()], then at most one [console.error], in this order and
    nothing else: there is no retry and no second read of the body. *)
Theorem transport_trace_shapes url opts onCancel :
  trace (fetchJson url opts onCancel) = [EvFetch url opts] \/
  (exists s, trace (fetchJson url opts onCancel) = [EvFetch url opts; EvConsoleError s]) \/
  (exists r, fetch url opts = Fulfilled r /\
     (trace (fetchJson url opts onCancel) = [EvFetch url opts; EvJson r] \/
      exists s, trace (fetchJson url opts onCancel) =
                  [EvFetch url opts; EvJson r; EvConsoleError s])).
Proof.
  transport_cases url opts; eauto 8.
Qed.

(** X2.  Whatever [fetchJson] logs with [console.error] is the [stack] of
    the value its promise is then rejected with: it never logs and
    resolves, and the name of a logged error is not [AbortError]. *)
Theorem logged_error_is_rejection url opts onCancel s :
  In (EvConsoleError s) (trace (fetchJson url opts onCancel)) ->
  exists e n,
    outcome (fetchJson url opts onCancel) = Normal (Rejected e) /\
    get e "stack" = Normal s /\
    get e "name" = Normal n /\ strict_neq_str n "AbortError" = true.
Proof using Type.
  clear REACT_APP_API_BASE_URL new_URL Number_toString JSON_stringify
    formatReservationDate formatReservationTime.
  transport_cases url opts; unfold trace, outcome; simpl; intros H;
    intuition (try discriminate);
    match goal with
    | E : EvConsoleError _ = EvConsoleError _ |- _ => inversion E; subst
    end;
    (do 2 eexists; split; [reflexivity |]; split; [reflexivity |];
     split; [reflexivity | assumption || reflexivity]).
Qed.

Lemma fetchJson_parse_cancelled url opts onCancel r err :
  fetch url opts = Fulfilled r ->
  status r <> 204%Z ->
  json r = Rejected err ->
  get err "name" = Normal (VStr "AbortError") ->
  fetchJson url opts onCancel =
    ([EvFetch url opts; EvJson r], Normal (Fulfilled onCancel)).
Proof.
  intros Hf Hs Hj Hn. unfold fetchJson, call_fetch, call_json.
  rewrite Hf. simpl. apply Z.eqb_neq in Hs. rewrite Hs. simpl.
  rewrite Hj. simpl. rewrite Hn. reflexivity.
Qed.

(** X3.  A cancellation while the body is read: when [response.json()]
    rejects with an error named [AbortError], [fetchJson] resolves to the
    fallback and logs nothing. *)
Theorem cancellation_while_parsing url opts onCancel r err :
  fetch url opts = Fulfilled r ->
  status r <> 204%Z ->
  json r = Rejected err ->
  get err "name" = Normal (VStr "AbortError") ->
  fetchJson url opts onCancel =
    ([EvFetch url opts; EvJson r], Normal (Fulfilled onCancel)).
Proof.
  intros Hf Hs Hj Hn. apply (fetchJson_parse_cancelled _ _ _ _ _ Hf Hs Hj Hn).
Qed.

(** X4.  A body that parses to [null] (or [undefined]) is not an envelope:
    reading its [error] field throws, and [fetchJson] logs and rejects with
    a [TypeError], not with a [{message}] object. *)
Theorem nullish_body_rejects url opts onCancel r payload :
  fetch url opts = Fulfilled r ->
  status r <> 204%Z ->
  json r = Fulfilled payload ->
  is_nullish payload = true ->
  exists e s,
    fetchJson url opts onCancel =
      ([EvFetch url opts; EvJson r; EvConsoleError s], Normal (Rejected e)) /\
    get e "name" = Normal (VStr "TypeError") /\
    get e "stack" = Normal s.
Proof.
  intros Hf Hs Hj Hp. unfold fetchJson, call_fetch, call_json, console_error.
  rewrite Hf. simpl. apply Z.eqb_neq in Hs. rewrite Hs. simpl.
  rewrite Hj. simpl. destruct payload; try discriminate Hp; simpl; eauto.
Qed.

(** X5.  A body that is not an envelope object (a bare array, string,
    number or boolean), or an object with neither a truthy [error] nor a
    [data] field, makes [fetchJson] resolve to [undefined]: the parsed
    content is dropped without an error. *)
Theorem missing_data_resolves_undefined url opts onCancel r payload :
  fetch url opts = Fulfilled r ->
  status r <> 204%Z ->
  json r = Fulfilled payload ->
  is_nullish payload = false ->
  (forall ps, payload = VObj ps ->
              truthy (prop "error" ps) = false /\ lookup "data" ps = None) ->
  fetchJson url opts onCancel =
    ([EvFetch url opts; EvJson r], Normal (Fulfilled VUndefined)).
Proof.
  intros Hf Hs Hj Hp Hobj. unfold fetchJson, call_fetch, call_json.
  rewrite Hf. simpl. apply Z.eqb_neq in Hs. rewrite Hs. simpl.
  rewrite Hj. simpl. destruct payload; try discriminate Hp; simpl; try reflexivity.
  destruct (Hobj props eq_refl) as [He Hd]. rewrite He. simpl.
  unfold prop. rewrite Hd. reflexivity.
Qed.

(** X6.  On an object body of a response other than 204, [fetchJson]
    rejects exactly when the [error] field is truthy, and then with
    [{message: error}] whatever the type of [error] is (a number, [true],
    an object as well as a string); nothing is logged either way. *)
Theorem envelope_rejects_iff_error_truthy url opts onCancel r ps :
  fetch url opts = Fulfilled r ->
  status r <> 204%Z ->
  json r = Fulfilled (VObj ps) ->
  ((exists e, outcome (fetchJson url opts onCancel) = Normal (Rejected e)) <->
   truthy (prop "error" ps) = true) /\
  (forall e, outcome (fetchJson url opts onCancel) = Normal (Rejected e) ->
             e = VObj [("message", prop "error" ps)]) /\
  existsb is_console (trace (fetchJson url opts onCancel)) = false.
Proof.
  intros Hf Hs Hj. rewrite (fetchJson_envelope _ _ onCancel _ _ Hf Hs Hj).
  destruct (truthy (prop "error" ps)); simpl; repeat split.
  - eauto.
  - intros e H. inversion H. reflexivity.
  - intros [e H]. discriminate H.
  - discriminate.
  - intros e H. discriminate H.
Qed.

(** X7.  When the underlying call rejects with [null] or [undefined], the
    [catch] clause itself throws on reading [error.name]: the promise is
    rejected with a [TypeError] in place of the original value, and nothing
    is logged. *)
Theorem nullish_rejection_masked url opts onCancel err :
  fetch url opts = Rejected err ->
  is_nullish err = true ->
  exists e,
    fetchJson url opts onCancel = ([EvFetch url opts], Normal (Rejected e)) /\
    e <> err /\
    get e "name" = Normal (VStr "TypeError").
Proof.
  intros Hf Hn. unfold fetchJson, call_fetch. rewrite Hf. simpl.
  destruct err; try discriminate Hn; simpl;
    (eexists; split; [reflexivity | split; [discriminate | reflexivity]]).
Qed.

(** X8.  The fallback matters only to a cancelled call: either the
    underlying call failed with an error named [AbortError] and the promise
    resolves to the fallback, or the calls made and the settled state are
    the same for every fallback. *)
Theorem fallback_only_on_cancellation url opts :
  (exists err, cancelled_by url opts err /\
     forall onCancel, outcome (fetchJson url opts onCancel) = Normal (Fulfilled onCancel)) \/
  (forall c c', fetchJson url opts c = fetchJson url opts c').
Proof.
  assert (A : forall n, strict_neq_str n "AbortError" = false -> n = VStr "AbortError").
  { intros n H. destruct n; try discriminate H. simpl in H.
    apply negb_false_iff, String.eqb_eq in H. subst. reflexivity. }
  unfold cancelled_by.
  destruct (fetch url opts) as [r | err] eqn:Hf.
  - destruct (Z.eqb (status r) 204) eqn:Hs.
    + right. intros c c'. unfold fetchJson, call_fetch. rewrite Hf. simpl.
      rewrite Hs. reflexivity.
    + destruct (json r) as [payload | err] eqn:Hj.
      * right. intros c c'. unfold fetchJson, call_fetch, call_json, console_error.
        rewrite Hf. simpl. rewrite Hs. simpl. rewrite Hj. simpl.
        destruct payload; simpl; try reflexivity.
        destruct (truthy (prop "error" props)); reflexivity.
      * destruct (get err "name") as [n | e] eqn:Hn.
        -- destruct (strict_neq_str n "AbortError") eqn:Hneq.
           ++ right. intros c c'.
              unfold fetchJson, call_fetch, call_json, console_error.
              rewrite Hf. simpl. rewrite Hs. simpl. rewrite Hj. simpl.
              rewrite Hn. simpl. rewrite Hneq. reflexivity.
           ++ left. exists err. apply A in Hneq. subst n.
              apply Z.eqb_neq in Hs. split.
              ** split; [exact Hn |]. right. exists r. auto.
              ** intros c.
                 rewrite (fetchJson_parse_cancelled _ _ c _ _ Hf Hs Hj Hn).
                 reflexivity.
        -- right. intros c c'.
           unfold fetchJson, call_fetch, call_json, console_error.
           rewrite Hf. simpl. rewrite Hs. simpl. rewrite Hj. simpl.
           rewrite Hn. reflexivity.
  - destruct (get err "name") as [n | e] eqn:Hn.
    + destruct (strict_neq_str n "AbortError") eqn:Hneq.
      * right. intros c c'. unfold fetchJson, call_fetch, console_error.
        rewrite Hf. simpl. rewrite Hn. simpl. rewrite Hneq. reflexivity.
      * left. exists err. apply A in Hneq. subst n. split.
        -- split; [exact Hn |]. left. reflexivity.
        -- intros c. rewrite (fetchJson_cancelled _ _ c _ Hf Hn). reflexivity.
    + right. intros c c'. unfold fetchJson, call_fetch, console_error.
      rewrite Hf. simpl. rewrite Hn. reflexivity.
Qed.

(** *** Further properties of the operations *)

Ltac request_shape :=
  cbv zeta; rewrite forward_eq by apply fetchJson_normal;
  let H := fresh in
  intros H; apply issues_fetchJson in H; destruct H as [_ ->];
  simpl; intuition (try discriminate; auto).

Ltac request_shape_after x :=
  destruct (ToString x) as [? | ?];
  [ rewrite bind_lift_normal; request_shape
  | let H := fresh in intros H; exfalso; exact (not_issues_nil _ _ _ H) ].

(** X9.  Every request an operation hands to [fetch] carries the header
    [Content-Type: application/json] and the signal the caller passed; its
    method is GET, POST, PUT or DELETE, and it has a body exactly when the
    method is POST or PUT. *)
Theorem request_invariant op url opts :
  issues (run op) url opts ->
  opt_headers opts = [("Content-Type", "application/json")] /\
  opt_signal opts = signal_of op /\
  In (opt_method opts) ["GET"; "POST"; "PUT"; "DELETE"] /\
  (opt_body opts <> None <-> opt_method opts = "POST" \/ opt_method opts = "PUT").
Proof.
  destruct op; simpl.
  - rewrite listReservations_eq.
    destruct (new_URL (API_BASE_URL ++ "/reservations")) as [u0 | e];
      [| intros H; exfalso; exact (not_issues_nil _ _ _ H)].
    destruct (list_query params) as [q | e];
      [| intros H; exfalso; exact (not_issues_nil _ _ _ H)].
    intros H. apply issues_formatted, issues_fetchJson in H.
    destruct H as [_ ->]. simpl. intuition (try discriminate; auto).
  - unfold createReservation. request_shape.
  - unfold listTables. request_shape.
  - unfold createTable. request_shape.
  - unfold editReservation. request_shape_after reservation_id.
  - unfold updateReservationStatus. request_shape_after reservation_id.
  - unfold seatReservation. request_shape_after table_id.
  - unfold finishTable. request_shape_after table_id.
Qed.

Lemma quiet_no_fetch t : forallb quiet t = true -> filter is_fetch t = [].
Proof.
  induction t as [| ev t IH]; simpl; [reflexivity |].
  intros H. apply andb_prop in H. destruct H as [Hq Ht].
  unfold quiet in Hq. apply andb_prop in Hq. destruct Hq as [Hq _].
  apply negb_true_iff in Hq. rewrite Hq. auto.
Qed.

Lemma fetch_count_fetchJson url opts onCancel :
  filter is_fetch (trace (fetchJson url opts onCancel)) = [EvFetch url opts].
Proof.
  destruct (fetchJson_shape url opts onCancel) as (t & p & E & Hq).
  rewrite E. unfold trace. simpl. rewrite (quiet_no_fetch _ Hq). reflexivity.
Qed.

Lemma fetch_count_formatted m :
  filter is_fetch (trace (formatted m)) = filter is_fetch (trace m).
Proof.
  destruct m as [t [[v | e] | e]]; simpl; try reflexivity.
  unfold trace, pipeline. simpl. rewrite filter_app.
  destruct (formatReservationDate v) as [d | e]; simpl.
  - destruct (formatReservationTime d); simpl; apply app_nil_r.
  - apply app_nil_r.
Qed.

(** X10.  No operation calls [fetch] more than once, whatever the response
    or the failure: there is no retry in this layer. *)
Theorem at_most_one_request op :
  (List.length (filter is_fetch (trace (run op))) <= 1)%nat.
Proof.
  destruct (filter is_fetch (trace (run op))) as [| ev t] eqn:E; [simpl; lia |].
  assert (Hin : In ev (filter is_fetch (trace (run op)))) by (rewrite E; left; reflexivity).
  apply filter_In in Hin. destruct Hin as [Hin Hf].
  destruct ev as [url opts | | | |]; try discriminate Hf.
  pose proof (run_issues op url opts Hin) as R.
  rewrite R in E.
  destruct (is_list_reservations op).
  - rewrite fetch_count_formatted, fetch_count_fetchJson in E.
    inversion E. simpl. lia.
  - rewrite fetch_count_fetchJson in E. inversion E. simpl. lia.
Qed.

(** X11.  Each of the seven operations other than [listReservations] adds
    nothing to the transport core: once its request is issued, the calls
    made and the settled state of its promise are those of [fetchJson] on
    that request with the fallback [[]]. *)
Theorem plain_operations_forward_transport op url opts :
  is_list_reservations op = false ->
  issues (run op) url opts ->
  run op = fetchJson url opts (VArr []).
Proof.
  intros Hl Hop. rewrite (run_issues _ _ _ Hop), Hl. reflexivity.
Qed.

(** X12.  On a response of status 204 [listReservations] hands [null] to
    the date formatter: the formatting runs on the [null] of the transport
    core as on any result, and the promise settles as the formatters leave
    it (rejected when the date formatter throws on [null]). *)
Theorem list_on_no_content_formats_null params signal url opts r :
  issues (listReservations params signal) url opts ->
  fetch url opts = Fulfilled r ->
  status r = 204%Z ->
  match formatReservationDate VNull with
  | Normal d =>
      trace (listReservations params signal) =
        [EvFetch url opts; EvFormatDate VNull; EvFormatTime d] /\
      outcome (listReservations params signal) =
        Normal match formatReservationTime d with
               | Normal x => Fulfilled x
               | Throw e => Rejected e
               end
  | Throw e =>
      trace (listReservations params signal) = [EvFetch url opts; EvFormatDate VNull] /\
      outcome (listReservations params signal) = Normal (Rejected e)
  end.
Proof.
  intros Hop Hf Hs.
  rewrite (listReservations_issues _ _ _ _ Hop).
  rewrite (fetchJson_no_content _ _ _ _ Hf Hs).
  unfold formatted, pipeline.
  destruct (formatReservationDate VNull) as [d | e]; simpl.
  - destruct (formatReservationTime d); split; reflexivity.
  - split; reflexivity.
Qed.

Lemma query_of_throws es k v e :
  In (k, v) es -> toString v = Throw e -> exists e', query_of es = Throw e'.
Proof using Type.
  clear REACT_APP_API_BASE_URL new_URL fetch JSON_stringify
    formatReservationDate formatReservationTime.
  induction es as [| [k' v'] es IH]; simpl; [tauto |].
  intros [H | H] Ht.
  - inversion H; subst. rewrite Ht. eexists; reflexivity.
  - destruct (toString v') as [s | e0]; [| eexists; reflexivity].
    destruct (IH H Ht) as [e' ->]. eexists; reflexivity.
Qed.

(** X13.  A filter object one value of which has no string form ([null],
    [undefined], at any position) sends nothing: [listReservations] calls
    neither [fetch] nor a formatter and returns a rejected promise, even
    though the entries before that one were already appended to the URL. *)
Theorem unprintable_filter_sends_nothing ps signal k v e :
  In (k, v) ps ->
  toString v = Throw e ->
  exists e', listReservations (VObj ps) signal = ([], Normal (Rejected e')).
Proof using Type.
  clear JSON_stringify.
  intros Hin Ht. rewrite listReservations_eq.
  destruct (new_URL (API_BASE_URL ++ "/reservations")) as [u0 | e0];
    [| eexists; reflexivity].
  unfold list_query. simpl.
  destruct (query_of_throws _ _ _ _ Hin Ht) as [e' ->]. eexists; reflexivity.
Qed.

(** X14.  A filter that is falsy ([undefined], [null], the empty string,
    zero, [false]) or has no entry of its own (an empty object or array, a
    number, [true]) leaves the URL as parsed from the base address: the one
    request issued is a GET of that URL. *)
Theorem empty_filter_adds_no_query params signal u0 :
  new_URL (API_BASE_URL ++ "/reservations") = Normal u0 ->
  truthy params = false \/ Object_entries params = Normal [] ->
  issues (listReservations params signal) (AsURL u0) (request signal "GET" None) /\
  forall url opts,
    issues (listReservations params signal) url opts ->
    url = AsURL u0 /\ opts = request signal "GET" None.
Proof.
  intros Hu Hp.
  assert (Hq : list_query params = Normal []).
  { unfold list_query. destruct Hp as [Hp | Hp].
    - rewrite Hp. reflexivity.
    - rewrite Hp. destruct (truthy params); reflexivity. }
  pose proof (issues_list_query params signal u0 [] Hu Hq) as H.
  simpl in H. rewrite app_nil_r in H.
  replace {| location := location u0; searchParams := searchParams u0 |} with u0 in H
    by (destruct u0; reflexivity).
  exact H.
Qed.

End Api.

(** ** Properties of the route table *)

Section LayoutProperties.

Variable matchPath : string -> string -> bool -> bool.
Variable query_get : string -> value.
Variable today : value.

(** X15.  The route of [/reservations/new] comes after the route without a
    path, which matches every location: whatever the matcher and the
    location, the table never renders the new-reservation page. *)
Theorem new_reservation_route_unreachable pathname :
  Routes matchPath query_get today pathname <> Some NewReservation.
Proof.
  unfold Routes, Switch, route_matches. simpl.
  destruct (matchPath pathname "/" true); [discriminate |].
  destruct (matchPath pathname "/reservations" true); [discriminate |].
  destruct (matchPath pathname "/dashboard" false); [discriminate |].
  destruct (matchPath pathname "/search" false); discriminate.
Qed.

(** X16.  The table renders an element at every location, and the
    not-found page exactly at the locations that none of [/] (exact),
    [/reservations] (exact), [/dashboard] and [/search] matches. *)
Theorem routes_always_render pathname :
  (exists el, Routes matchPath query_get today pathname = Some el) /\
  (Routes matchPath query_get today pathname = Some NotFound <->
   matchPath pathname "/" true = false /\
   matchPath pathname "/reservations" true = false /\
   matchPath pathname "/dashboard" false = false /\
   matchPath pathname "/search" false = false).
Proof.
  unfold Routes, Switch, route_matches. simpl.
  destruct (matchPath pathname "/" true);
    [split; [eauto | split; [discriminate | intros (H & _); discriminate H]] |].
  destruct (matchPath pathname "/reservations" true);
    [split; [eauto | split; [discriminate | intros (_ & H & _); discriminate H]] |].
  destruct (matchPath pathname "/dashboard" false);
    [split; [eauto | split; [discriminate | intros (_ & _ & H & _); discriminate H]] |].
  destruct (matchPath pathname "/search" false);
    [split; [eauto | split; [discriminate | intros (_ & _ & _ & H); discriminate H]] |].
  split; [eauto | split; auto].
Qed.

(** X17.  The dashboard gets the [date] of the query when that is a
    non-empty string, and [today()] when it is absent or empty; so, with a
    clock that returns a non-empty value, it never gets an empty date. *)
Theorem dashboard_date_defaults_to_today pathname d :
  Routes matchPath query_get today pathname = Some (Dashboard d) ->
  d = (if truthy (query_get "date") then query_get "date" else today) /\
  (truthy today = true -> truthy d = true).
Proof.
  unfold Routes, Switch, route_matches. simpl.
  destruct (matchPath pathname "/" true); [discriminate |].
  destruct (matchPath pathname "/reservations" true); [discriminate |].
  destruct (matchPath pathname "/dashboard" false).
  - intros H. inversion H. split; [reflexivity |].
    destruct (truthy (query_get "date")) eqn:E; auto.
  - destruct (matchPath pathname "/search" false); discriminate.
Qed.

End LayoutProperties.

(** ** The operations on concrete inputs *)

Example finishTable_no_content :
  finishTable None (constant_fetch (Fulfilled no_content_response)) coarse_number
    (VStr "7") VUndefined =
  ([EvFetch (AsString "http://localhost:5000/tables/7/seat")
      {| opt_headers := [("Content-Type", "application/json")];
         opt_signal := VUndefined; opt_method := "DELETE"; opt_body := None |}],
   Normal (Fulfilled VNull)).
Proof. reflexivity. Qed.

Example seatReservation_request :
  trace (seatReservation (Some "https://api.example.org")
           (constant_fetch (Rejected abort_error)) coarse_number opaque_stringify
           (VStr "3") (VStr "7") VUndefined) =
  [EvFetch (AsString "https://api.example.org/tables/7/seat")
     {| opt_headers := [("Content-Type", "application/json")];
        opt_signal := VUndefined; opt_method := "PUT";
        opt_body := Some (VObj [("data", VObj [("reservation_id", VStr "3")])]) |}].
Proof. reflexivity. Qed.

Example listReservations_null_payload :
  outcome (listReservations None plain_URL
             (constant_fetch (Fulfilled (ok_response VNull)))
             coarse_number sample_formatDate sample_formatTime
             (VObj [("mobile_number", VStr "555")]) VUndefined) =
  Normal (Rejected (TypeError "Cannot read properties of nullish value (reading 'error')")).
Proof. reflexivity. Qed.

Lemma no_content_resolves_null_witness :
  let f := constant_fetch (Fulfilled no_content_response) in
  outcome (fetchJson f (reservations_url []) get_options (VArr [])) =
    Normal (Fulfilled VNull) /\
  trace (fetchJson f (reservations_url []) get_options (VArr [])) =
    [EvFetch (reservations_url []) get_options] /\
  existsb is_json (trace (fetchJson f (reservations_url []) get_options (VArr []))) = false.
Proof.
  intros f.
  apply (no_content_resolves_null f _ _ _ no_content_response); reflexivity.
Defined.

Lemma error_takes_precedence_witness :
  outcome (fetchJson (constant_fetch (Fulfilled (ok_response both_fields)))
             (reservations_url []) get_options (VArr [])) =
    Normal (Rejected (VObj [("message", VStr "X")])).
Proof.
  apply (error_takes_precedence _ _ _ _ (ok_response both_fields)
           [("error", VStr "X"); ("data", VNum (S754_zero false))]
           (VStr "X") (VNum (S754_zero false)));
    try reflexivity.
  simpl. lia.
Defined.

Lemma transport_failure_rethrown_witness :
  let m := fetchJson (constant_fetch (Rejected network_error))
             (reservations_url []) get_options (VArr []) in
  outcome m = Normal (Rejected network_error) /\
  exists s, get network_error "stack" = Normal s /\ In (EvConsoleError s) (trace m).
Proof.
  intros m.
  apply (transport_failure_rethrown (constant_fetch (Rejected network_error))
           _ _ _ network_error (VStr "TypeError")).
  - left. reflexivity.
  - reflexivity.
  - reflexivity.
Defined.

Lemma backend_error_rejects_witness :
  let f := constant_fetch (Fulfilled {| status := 400; json := Fulfilled (VObj [("error", VStr "X")]) |}) in
  (forall onCancel,
      outcome (fetchJson f (reservations_url []) get_options onCancel) =
        Normal (Rejected (VObj [("message", VStr "X")]))) /\
  (forall op,
      issues (run None plain_URL f coarse_number opaque_stringify
                sample_formatDate sample_formatTime op)
             (reservations_url []) get_options ->
      outcome (run None plain_URL f coarse_number opaque_stringify
                 sample_formatDate sample_formatTime op) =
        Normal (Rejected (VObj [("message", VStr "X")]))).
Proof.
  intros f.
  apply (backend_error_rejects None plain_URL f coarse_number opaque_stringify
           sample_formatDate sample_formatTime _ _
           {| status := 400; json := Fulfilled (VObj [("error", VStr "X")]) |}
           [("error", VStr "X")] "X"); try reflexivity.
  - simpl. lia.
  - discriminate.
Defined.

Lemma data_envelope_resolves_witness :
  let f := constant_fetch (Fulfilled (ok_response (VObj [("data", raw_reservations)]))) in
  outcome (run None plain_URL f coarse_number opaque_stringify
             sample_formatDate sample_formatTime (ListTables VUndefined)) =
    Normal (Fulfilled raw_reservations).
Proof.
  intros f.
  apply (data_envelope_resolves None plain_URL f coarse_number opaque_stringify
           sample_formatDate sample_formatTime (ListTables VUndefined)
           (AsString "http://localhost:5000/tables") get_options
           (ok_response (VObj [("data", raw_reservations)]))
           [("data", raw_reservations)] raw_reservations); try reflexivity.
  - unfold issues. simpl. left. reflexivity.
  - simpl. lia.
Defined.


Lemma operations_never_throw_witness :
  let unprintable := VObj [("toString", VNull)] in
  finishTable None (constant_fetch (Rejected abort_error)) coarse_number
    unprintable VUndefined =
    ([], Normal (Rejected (TypeError "Cannot convert object to primitive value"))) /\
  listReservations None plain_URL (constant_fetch (Rejected abort_error)) coarse_number
    sample_formatDate sample_formatTime
    (VObj [("date", VStr "2023-05-01"); ("mobile_number", VNull)]) VUndefined =
    ([], Normal (Rejected
                   (TypeError "Cannot read properties of nullish value (reading 'toString')"))).
Proof.
  intros unprintable.
  pose proof (operations_never_throw None plain_URL
                (constant_fetch (Rejected abort_error)) coarse_number
                opaque_stringify sample_formatDate sample_formatTime)
    as (_ & _ & _ & Hfilter & Hid & _).
  split.
  - apply (Hid unprintable VNull VUndefined
             (TypeError "Cannot convert object to primitive value")).
    reflexivity.
  - apply (Hfilter VUndefined
             {| location := "http://localhost:5000/reservations"; searchParams := [] |}
             [("date", VStr "2023-05-01")] [("date", "2023-05-01")]
             "mobile_number" VNull []).
    + reflexivity.
    + constructor; [split; reflexivity | constructor].
    + reflexivity.
Defined.

Lemma cancelled_list_is_formatted_witness :
  let m := listReservations None plain_URL (constant_fetch (Rejected abort_error))
             coarse_number sample_formatDate sample_formatTime VUndefined VUndefined in
  trace m = [EvFetch (reservations_url []) get_options;
             EvFormatDate (VArr []); EvFormatTime (VArr [])] /\
  outcome m = Normal (Fulfilled (VArr [])).
Proof.
  intros m.
  apply (cancelled_list_is_formatted None plain_URL
           (constant_fetch (Rejected abort_error)) coarse_number
           sample_formatDate sample_formatTime VUndefined VUndefined
           (reservations_url []) get_options abort_error (VArr []) (VArr [])).
  - unfold issues. simpl. left. reflexivity.
  - reflexivity.
  - reflexivity.
  - reflexivity.
  - reflexivity.
Defined.

Lemma formatting_on_success_only_witness :
  let f := constant_fetch (Fulfilled (ok_response (VObj [("data", raw_reservations)]))) in
  let m := listReservations None plain_URL f coarse_number
             sample_formatDate sample_formatTime VUndefined VUndefined in
  let date_done :=
    VArr [VObj [("reservation_date", VStr "2023-01-01");
                ("reservation_time", VStr "18:30:00")]] in
  trace m =
    [EvFetch (reservations_url []) get_options;
     EvJson (ok_response (VObj [("data", raw_reservations)]));
     EvFormatDate raw_reservations; EvFormatTime date_done] /\
  outcome m = Normal (Fulfilled shown_reservations).
Proof.
  intros f m date_done.
  apply (proj1 (formatting_on_success_only None plain_URL f coarse_number
                  sample_formatDate sample_formatTime VUndefined VUndefined)
           (reservations_url []) get_options
           [EvFetch (reservations_url []) get_options;
            EvJson (ok_response (VObj [("data", raw_reservations)]))]
           (Fulfilled raw_reservations)).
  - unfold issues. simpl. left. reflexivity.
  - reflexivity.
Defined.

Lemma query_parameters_appended_once_witness :
  exists u,
    issues (listReservations None plain_URL (constant_fetch (Rejected abort_error))
              coarse_number sample_formatDate sample_formatTime
              (VObj [("date", VStr "2023-05-01")]) VUndefined)
           (AsURL u) get_options /\
    count_occ pair_eq_dec (searchParams u) ("date", "2023-05-01") = 1.
Proof.
  destruct (proj1 (query_parameters_appended_once None plain_URL
                     (constant_fetch (Rejected abort_error)) coarse_number
                     sample_formatDate sample_formatTime VUndefined
                     {| location := "http://localhost:5000/reservations";
                        searchParams := [] |} eq_refl) eq_refl)
    as (u & H1 & _ & _ & H2).
  exists u. split; [exact H1 | exact H2].
Defined.

(** The error envelope behind a response of status 204 is not read: the
    promise resolves to [null] where C1 has it rejected with
    [{message: "X"}]. *)
Lemma backend_error_no_content_counterexample :
  let f := constant_fetch (Fulfilled no_content_response) in
  json no_content_response = Fulfilled (VObj [("error", VStr "X")]) /\
  outcome (fetchJson f (reservations_url []) get_options (VArr [])) =
    Normal (Fulfilled VNull) /\
  outcome (fetchJson f (reservations_url []) get_options (VArr [])) <>
    Normal (Rejected (VObj [("message", VStr "X")])) /\
  outcome (run None plain_URL f coarse_number opaque_stringify
             sample_formatDate sample_formatTime (ListTables VUndefined)) <>
    Normal (Rejected (VObj [("message", VStr "X")])).
Proof.
  intros f. repeat split; try reflexivity; discriminate.
Qed.

(** With formatters that cut a time to [HH:MM], [listReservations] on the
    body [{data: Y}] resolves to a value that is not deep-equal to [Y],
    where C2 has it resolve to [Y]. *)
Lemma list_reservations_data_counterexample :
  let f := constant_fetch (Fulfilled (ok_response (VObj [("data", raw_reservations)]))) in
  let m := run None plain_URL f coarse_number opaque_stringify
             sample_formatDate sample_formatTime
             (ListReservations VUndefined VUndefined) in
  outcome m = Normal (Fulfilled shown_reservations) /\
  deep_equal shown_reservations raw_reservations = false /\
  outcome m <> Normal (Fulfilled raw_reservations).
Proof.
  intros f m. repeat split; try reflexivity; discriminate.
Qed.

(** ** Further runs on concrete inputs *)

Example new_reservation_shows_not_found :
  Routes literal_match (fun _ => VNull) (VStr "2023-05-01") "/reservations/new" =
  Some NotFound.
Proof. reflexivity. Qed.

Lemma logged_error_is_rejection_witness :
  exists e n,
    outcome (fetchJson (constant_fetch (Rejected network_error))
               (reservations_url []) get_options (VArr [])) = Normal (Rejected e) /\
    get e "stack" = Normal (VStr "TypeError: Failed to fetch") /\
    get e "name" = Normal n /\ strict_neq_str n "AbortError" = true.
Proof.
  apply (logged_error_is_rejection (constant_fetch (Rejected network_error))).
  simpl. right. left. reflexivity.
Defined.

Lemma cancellation_while_parsing_witness :
  let r := {| status := 200; json := Rejected abort_error |} in
  fetchJson (constant_fetch (Fulfilled r)) (reservations_url []) get_options (VArr []) =
    ([EvFetch (reservations_url []) get_options; EvJson r], Normal (Fulfilled (VArr []))).
Proof.
  intros r.
  apply (cancellation_while_parsing (constant_fetch (Fulfilled r)) _ _ _ r abort_error);
    try reflexivity.
  simpl. lia.
Defined.

Lemma nullish_body_rejects_witness :
  exists e s,
    fetchJson (constant_fetch (Fulfilled (ok_response VNull)))
      (reservations_url []) get_options (VArr []) =
      ([EvFetch (reservations_url []) get_options; EvJson (ok_response VNull);
        EvConsoleError s], Normal (Rejected e)) /\
    get e "name" = Normal (VStr "TypeError") /\
    get e "stack" = Normal s.
Proof.
  apply (nullish_body_rejects (constant_fetch (Fulfilled (ok_response VNull)))
           _ _ _ (ok_response VNull) VNull); try reflexivity.
  simpl. lia.
Defined.

Lemma missing_data_resolves_undefined_witness :
  fetchJson (constant_fetch (Fulfilled (ok_response raw_reservations)))
    (reservations_url []) get_options (VArr []) =
  ([EvFetch (reservations_url []) get_options; EvJson (ok_response raw_reservations)],
   Normal (Fulfilled VUndefined)).
Proof.
  apply (missing_data_resolves_undefined
           (constant_fetch (Fulfilled (ok_response raw_reservations)))
           _ _ _ (ok_response raw_reservations) raw_reservations); try reflexivity.
  - simpl. lia.
  - intros ps H. discriminate H.
Defined.

Lemma envelope_rejects_iff_error_truthy_witness :
  let body := VObj [("error", VBool true)] in
  let m := fetchJson (constant_fetch (Fulfilled (ok_response body)))
             (reservations_url []) get_options (VArr []) in
  ((exists e, outcome m = Normal (Rejected e)) <-> true = true) /\
  (forall e, outcome m = Normal (Rejected e) -> e = VObj [("message", VBool true)]) /\
  existsb is_console (trace m) = false.
Proof.
  intros body m.
  apply (envelope_rejects_iff_error_truthy
           (constant_fetch (Fulfilled (ok_response body))) _ _ _
           (ok_response body) [("error", VBool true)]); try reflexivity.
  simpl. lia.
Defined.

Lemma nullish_rejection_masked_witness :
  exists e,
    fetchJson (constant_fetch (Rejected VNull)) (reservations_url []) get_options (VArr []) =
      ([EvFetch (reservations_url []) get_options], Normal (Rejected e)) /\
    e <> VNull /\
    get e "name" = Normal (VStr "TypeError").
Proof.
  apply (nullish_rejection_masked (constant_fetch (Rejected VNull))); reflexivity.
Defined.

Lemma request_invariant_witness :
  let opts :=
    {| opt_headers := [("Content-Type", "application/json")]; opt_signal := VBool true;
       opt_method := "PUT";
       opt_body := Some (VObj [("data", VObj [("reservation_id", VStr "3")])]) |} in
  opt_headers opts = [("Content-Type", "application/json")] /\
  opt_signal opts = VBool true /\
  In (opt_method opts) ["GET"; "POST"; "PUT"; "DELETE"] /\
  (opt_body opts <> None <-> opt_method opts = "POST" \/ opt_method opts = "PUT").
Proof.
  intros opts.
  apply (request_invariant None plain_URL (constant_fetch (Rejected abort_error))
           coarse_number opaque_stringify sample_formatDate sample_formatTime
           (SeatReservation (VStr "3") (VStr "7") (VBool true))
           (AsString "http://localhost:5000/tables/7/seat") opts).
  unfold issues. simpl. left. reflexivity.
Defined.

Lemma plain_operations_forward_transport_witness :
  let f := constant_fetch (Fulfilled no_content_response) in
  run None plain_URL f coarse_number opaque_stringify sample_formatDate sample_formatTime
    (FinishTable (VStr "7") VUndefined) =
  fetchJson f (AsString "http://localhost:5000/tables/7/seat")
    {| opt_headers := [("Content-Type", "application/json")]; opt_signal := VUndefined;
       opt_method := "DELETE"; opt_body := None |} (VArr []).
Proof.
  intros f.
  apply (plain_operations_forward_transport None plain_URL f coarse_number
           opaque_stringify sample_formatDate sample_formatTime
           (FinishTable (VStr "7") VUndefined)).
  - reflexivity.
  - unfold issues. simpl. left. reflexivity.
Defined.

Lemma list_on_no_content_formats_null_witness :
  let m := listReservations None plain_URL (constant_fetch (Fulfilled no_content_response))
             coarse_number sample_formatDate sample_formatTime VUndefined VUndefined in
  trace m = [EvFetch (reservations_url []) get_options; EvFormatDate VNull] /\
  outcome m = Normal (Rejected (TypeError "Cannot read properties of nullish value")).
Proof.
  intros m.
  apply (list_on_no_content_formats_null None plain_URL
           (constant_fetch (Fulfilled no_content_response)) coarse_number
           sample_formatDate sample_formatTime VUndefined VUndefined
           (reservations_url []) get_options no_content_response).
  - unfold issues. simpl. left. reflexivity.
  - reflexivity.
  - reflexivity.
Defined.

Lemma unprintable_filter_sends_nothing_witness :
  exists e',
    listReservations None plain_URL (constant_fetch (Rejected abort_error))
      coarse_number sample_formatDate sample_formatTime
      (VObj [("date", VStr "2023-05-01"); ("mobile_number", VNull)]) VUndefined =
    ([], Normal (Rejected e')).
Proof.
  apply (unprintable_filter_sends_nothing None plain_URL
           (constant_fetch (Rejected abort_error)) coarse_number
           sample_formatDate sample_formatTime
           [("date", VStr "2023-05-01"); ("mobile_number", VNull)] VUndefined
           "mobile_number" VNull
           (TypeError "Cannot read properties of nullish value (reading 'toString')")).
  - simpl. right. left. reflexivity.
  - reflexivity.
Defined.

Lemma empty_filter_adds_no_query_witness :
  let m := listReservations None plain_URL (constant_fetch (Rejected abort_error))
             coarse_number sample_formatDate sample_formatTime (VObj []) VUndefined in
  issues m (reservations_url []) get_options /\
  forall url opts, issues m url opts -> url = reservations_url [] /\ opts = get_options.
Proof.
  intros m.
  apply (empty_filter_adds_no_query None plain_URL
           (constant_fetch (Rejected abort_error)) coarse_number
           sample_formatDate sample_formatTime (VObj []) VUndefined
           {| location := "http://localhost:5000/reservations"; searchParams := [] |}).
  - reflexivity.
  - right. reflexivity.
Defined.

Lemma dashboard_date_defaults_to_today_witness :
  let query_get := fun _ : string => VStr "" in
  Routes literal_match query_get (VStr "2023-05-01") "/dashboard/today" =
    Some (Dashboard (VStr "2023-05-01")) /\
  VStr "2023-05-01" =
    (if truthy (query_get "date") then query_get "date" else VStr "2023-05-01") /\
  (truthy (VStr "2023-05-01") = true -> truthy (VStr "2023-05-01") = true).
Proof.
  intros query_get. split; [reflexivity |].
  apply (dashboard_date_defaults_to_today literal_match query_get
           (VStr "2023-05-01") "/dashboard/today" (VStr "2023-05-01")).
  reflexivity.
Defined.

